(** * CBRA services: the case workflow model and the staff permission

    A shallow embedding of [cbraservices/models.py] (the [Case] and
    [CaseFile] models with their computed properties), of
    [cbraservices/permissions.py] (the [IsStaff] permission) and of the
    field default recorded by migration [0009_auto_20160408_0902], followed
    by the properties of the specification that concern them. *)

From Stdlib Require Import ZArith List Bool Lia.
From Stdlib Require Import Strings.String Strings.Ascii.
From Stdlib Require Import Numbers.DecimalString Numbers.DecimalZ Numbers.DecimalPos.
From Stdlib Require Import Floats.SpecFloat.
Import ListNotations.

Open Scope string_scope.
Open Scope Z_scope.

(** ** The Python values the models compute with *)

Module Py.

(** [datetime.date] and [datetime.datetime]. *)
Record date : Type := mkdate { year : Z; month : Z; day : Z }.

Record datetime : Type :=
  mkdatetime { dt_date : date; hour : Z; minute : Z; second : Z }.

(** [datetime.date()] on a [datetime] object. *)
Definition date_of (t : datetime) : date := dt_date t.

(** What the attribute of a [DateField] can hold on an instance: a [date],
    or a [datetime] that was assigned to it (by a default callable, say),
    which stays as it is until the row is saved and read back. *)
Inductive date_attr : Type :=
| Date (d : date)
| Datetime (t : datetime).

(** Exceptions raised by the modelled code paths. *)
Inductive exn : Type :=
| ObjectDoesNotExist
| MultipleObjectsReturned
| IndexError.

(** A computation that returns a value or raises. *)
Inductive result (A : Type) : Type :=
| Return (a : A)
| Raise (e : exn).
Arguments Return {A} a.
Arguments Raise {A} e.

Definition bind {A B} (m : result A) (k : A -> result B) : result B :=
  match m with
  | Return a => k a
  | Raise e => Raise e
  end.

Definition exn_eqb (a b : exn) : bool :=
  match a, b with
  | ObjectDoesNotExist, ObjectDoesNotExist => true
  | MultipleObjectsReturned, MultipleObjectsReturned => true
  | IndexError, IndexError => true
  | _, _ => false
  end.

(** [try: m except e: h]; any other exception propagates. *)
Definition try_except {A} (m : result A) (e : exn) (h : result A) : result A :=
  match m with
  | Return a => Return a
  | Raise e' => if exn_eqb e' e then h else Raise e'
  end.

(** Truth value testing ([if x], [not x]). *)
Class Truthy (A : Type) : Type := truth : A -> bool.

(** A [date] has neither [__bool__] nor [__len__]: always true. *)
#[global] Instance date_truthy : Truthy date := fun _ => true.
(** An [int] is false exactly when it is zero. *)
#[global] Instance int_truthy : Truthy Z := fun n => negb (n =? 0).
(** A [str] is false exactly when it is empty. *)
#[global] Instance str_truthy : Truthy string :=
  fun s => match s with EmptyString => false | String _ _ => true end.
(** [None] is false; any other object follows its own rule. *)
#[global] Instance option_truthy {A} `{Truthy A} : Truthy (option A) :=
  fun o => match o with Some a => truth a | None => false end.

(** [str(n)] for an [int]. *)
Definition str_int (n : Z) : string := NilZero.string_of_int (Z.to_int n).

(** [int(s)] for a decimal literal, [None] where Python raises. *)
Definition int_str (s : string) : option Z :=
  option_map Z.of_int (NilZero.int_of_string s).

(** ['%s' % x] where [x] is an [int] or [None]. *)
Definition format_s_id (x : option Z) : string :=
  match x with
  | Some n => str_int n
  | None => "None"
  end.

(** [s.split(sep)] for a one-character separator. *)
Fixpoint split (sep : ascii) (s : string) : list string :=
  match s with
  | EmptyString => [EmptyString]
  | String c s' =>
      if Ascii.eqb c sep then EmptyString :: split sep s'
      else match split sep s' with
           | [] => [String c EmptyString]
           | w :: ws => String c w :: ws
           end
  end.

(** [l[-1]]. *)
Fixpoint getitem_last {A} (l : list A) : result A :=
  match l with
  | [] => Raise IndexError
  | [a] => Return a
  | _ :: l' => getitem_last l'
  end.

(** [c in s] for a character. *)
Fixpoint contains (c : ascii) (s : string) : bool :=
  match s with
  | EmptyString => false
  | String c' s' => Ascii.eqb c' c || contains c s'
  end.

End Py.

Import Py.

Notation "x <- m ;; k" := (bind m (fun x => k))
  (at level 61, m at next level, right associativity).

(** ** Django model fields *)

Module Field.

(** The [default=] argument of a field: a value, fixed when the class body
    runs, or a callable, run whenever an instance needs the default
    ([Field.get_default]). *)
Inductive default (A : Type) : Type :=
| Value (a : A)
| Callable (f : datetime -> A).
Arguments Value {A} a.
Arguments Callable {A} f.

(** [Field.get_default()], called at clock time [now]. *)
Definition get_default {A} (d : default A) (now : datetime) : A :=
  match d with
  | Value a => a
  | Callable f => f now
  end.

(** The value [Model.__init__] gives a field: the keyword argument when it
    is passed, the field's default otherwise. *)
Definition init_value {A} (kwarg : option A) (d : default A) (now : datetime) : A :=
  match kwarg with
  | Some a => a
  | None => get_default d now
  end.

(** [DateField.to_python]: what the column keeps of the attribute when the
    row is saved. *)
Definition date_to_python (v : date_attr) : date :=
  match v with
  | Date d => d
  | Datetime t => date_of t
  end.

End Field.

(** ** [models.py] *)

(** [HistoryModel], the abstract base class of every model. *)
Module HistoryModel.

(** [created_date = models.DateField(default=datetime.now, ...)]: the
    function itself is passed, and [Model.__init__] stores the [datetime]
    it returns as it is. [loaded] is the clock when the class body runs. *)
Definition created_date_default (loaded : datetime)
    : Field.default (option date_attr) :=
  Field.Callable (fun now => Some (Datetime now)).

End HistoryModel.

Module Case.

Record t : Type := mk {
  id : option Z;
  created_date : option date_attr;
  created_by : option Z;
  modified_date : option date;
  modified_by : option Z;
  case_hash : string;
  request_date : date;
  requester : Z;
  property : Z;
  cbrs_unit : option Z;
  map_number : option Z;
  cbrs_map_date : option date;
  determination : option Z;
  prohibition_date : option date;
  distance : option spec_float;
  fws_fo_received_date : option date;
  fws_hq_received_date : option date;
  final_letter_date : option date;
  close_date : option date;
  final_letter_recipient : string;
  analyst : option Z;
  analyst_signoff_date : option date;
  qc_reviewer : option Z;
  qc_reviewer_signoff_date : option date;
  fws_reviewer : option Z;
  fws_reviewer_signoff_date : option date;
  priority : bool;
  tags : list Z
}.

(** Returns the id of the record. *)
Definition _get_id (self : t) : string := format_s_id (id self).

(** Returns the status of the record. *)
Definition _get_status (self : t) : string :=
  if truth (close_date self) && negb (truth (final_letter_date self)) then
    "Closed with no Final Letter"
  else if truth (close_date self) then
    "Final"
  else if truth (fws_reviewer_signoff_date self) then
    "Awaiting Final Letter"
  else if truth (qc_reviewer_signoff_date self) then
    "Awaiting FWS Review"
  else if truth (analyst_signoff_date self) then
    "Awaiting QC"
  else
    "Received".

Definition case_number (self : t) : string := _get_id self.
Definition status (self : t) : string := _get_status self.

(** [request_date = models.DateField(default=datetime.now().date())]: the
    call is made in the class body, at clock time [loaded], and its result
    is what the field receives. *)
Definition request_date_default (loaded : datetime) : Field.default date :=
  Field.Value (date_of loaded).

Definition __str__ (self : t) : string := case_number self.

(** [Case(requester=..., property=...)] or
    [Case(request_date=..., requester=..., property=...)] evaluated at
    clock time [now] by a process that imported the module at [loaded]:
    fields not passed take their defaults. *)
Definition init (loaded now : datetime) (request_date_kw : option date)
    (requester_kw property_kw : Z) : t :=
  {| id := None;
     created_date :=
       Field.init_value None (HistoryModel.created_date_default loaded) now;
     created_by := None;
     modified_date := None;
     modified_by := None;
     case_hash := "";
     request_date :=
       Field.init_value request_date_kw (request_date_default loaded) now;
     requester := requester_kw;
     property := property_kw;
     cbrs_unit := None;
     map_number := None;
     cbrs_map_date := None;
     determination := None;
     prohibition_date := None;
     distance := None;
     fws_fo_received_date := None;
     fws_hq_received_date := None;
     final_letter_date := None;
     close_date := None;
     final_letter_recipient := "";
     analyst := None;
     analyst_signoff_date := None;
     qc_reviewer := None;
     qc_reviewer_signoff_date := None;
     fws_reviewer := None;
     fws_reviewer_signoff_date := None;
     priority := false;
     tags := [] |}.

(** The six labels [_get_status] is written to return. *)
Definition status_labels : list string :=
  [ "Closed with no Final Letter"; "Final"; "Awaiting Final Letter";
    "Awaiting FWS Review"; "Awaiting QC"; "Received" ].

End Case.

(** Migration [0009_auto_20160408_0902]: the default that [makemigrations]
    read off the [request_date] field and froze into the schema. *)
Module Migration0009.

Definition request_date_default : Field.default date :=
  Field.Value (mkdate 2016 4 8).

End Migration0009.

(** [django.db.models.fields.files.FieldFile], as far as [str()] reads it. *)
Module FieldFile.

Record t : Type := mk { name : option string }.

(** [return self.name or ''] *)
Definition __str__ (self : t) : string :=
  match name self with
  | Some n => if truth n then n else ""
  | None => ""
  end.

End FieldFile.

Module CaseFile.

Record t : Type := mk {
  id : option Z;
  created_date : option date_attr;
  created_by : option Z;
  modified_date : option date;
  modified_by : option Z;
  file : FieldFile.t;
  case : Case.t;
  uploader_id : option Z;
  uploaded_date : option date
}.

(** Returns the name of the file. *)
Definition _get_filename (self : t) : result string :=
  x <- getitem_last (split "/" (FieldFile.__str__ (file self))) ;;
  Return x.

(** Returns a custom location for the case file, in a folder named for
    its case. *)
Definition casefile_location (instance : t) (filename : string) : string :=
  if negb (truth (uploader_id instance)) then
    "casefiles/" ++ Case.__str__ (case instance) ++ "/requester/" ++ filename
  else
    "casefiles/" ++ Case.__str__ (case instance) ++ "/" ++ filename.

Definition name (self : t) : result string := _get_filename self.

Definition __str__ (self : t) : result string := name self.

End CaseFile.

(** ** [permissions.py] *)

(** [django.contrib.auth.models.User] and its manager. *)
Module User.

Record t : Type := mk {
  id : Z;
  username : string;
  is_staff : bool;
  is_active : bool;
  is_superuser : bool
}.

Definition __str__ (self : t) : string := username self.

(** The rows of the user table. *)
Definition table : Type := list t.

(** [User.objects.filter(username=name)] *)
Definition objects_filter (db : table) (name : string) : list t :=
  filter (fun u => String.eqb (username u) name) db.

(** [User.objects.get(username=name)]: the one matching row, and an
    exception when there is none or more than one. *)
Definition objects_get (db : table) (name : string) : result t :=
  match objects_filter db name with
  | [] => Raise ObjectDoesNotExist
  | [u] => Return u
  | _ :: _ :: _ => Raise MultipleObjectsReturned
  end.

(** [username] is declared [unique=True]. *)
Definition unique_usernames (db : table) : Prop := NoDup (map username db).

End User.

Module Request.

(** [request.user]: a [User], or [AnonymousUser] when nobody is logged in. *)
Inductive user_t : Type :=
| Authenticated (u : User.t)
| AnonymousUser.

Record t : Type := mk { user : user_t; method : string }.

(** The text a [username=] lookup compares with: [str(request.user)]. *)
Definition user_str (u : user_t) : string :=
  match u with
  | Authenticated u => User.__str__ u
  | AnonymousUser => "AnonymousUser"
  end.

End Request.

Module IsStaff.

(** Custom permission to only allow staff users access to objects. The
    user table the ORM reads is passed in as [db]. *)
Definition has_permission (db : User.table) (request : Request.t)
    (view : string) : result bool :=
  try_except
    (u <- User.objects_get db (Request.user_str (Request.user request)) ;;
     Return (User.is_staff u))
    ObjectDoesNotExist
    (Return false).

End IsStaff.

(** ** Sample records used to exercise the statements *)

Module Fixtures.

Definition apr8_0902 : datetime := mkdatetime (mkdate 2016 4 8) 9 2 0.
Definition apr9_1030 : datetime := mkdatetime (mkdate 2016 4 9) 10 30 0.

(** A case with the given id, priority and milestone dates. *)
Definition case_with (id_ : option Z) (priority_ : bool)
    (close final_letter fws qc analyst : option date) : Case.t :=
  {| Case.id := id_;
     Case.created_date := Some (Date (mkdate 2016 3 1));
     Case.created_by := None;
     Case.modified_date := None;
     Case.modified_by := None;
     Case.case_hash := "";
     Case.request_date := mkdate 2016 3 1;
     Case.requester := 1;
     Case.property := 1;
     Case.cbrs_unit := None;
     Case.map_number := None;
     Case.cbrs_map_date := None;
     Case.determination := None;
     Case.prohibition_date := None;
     Case.distance := None;
     Case.fws_fo_received_date := None;
     Case.fws_hq_received_date := None;
     Case.final_letter_date := final_letter;
     Case.close_date := close;
     Case.final_letter_recipient := "";
     Case.analyst := None;
     Case.analyst_signoff_date := analyst;
     Case.qc_reviewer := None;
     Case.qc_reviewer_signoff_date := qc;
     Case.fws_reviewer := None;
     Case.fws_reviewer_signoff_date := fws;
     Case.priority := priority_;
     Case.tags := (if priority_ then [7] else []) |}.

Definition apr1 : option date := Some (mkdate 2016 4 1).
Definition apr12 : option date := Some (mkdate 2016 4 12).
Definition apr20 : option date := Some (mkdate 2016 4 20).
Definition may1 : option date := Some (mkdate 2016 5 1).

(** A file attached to case [n], stored under [path]. *)
Definition casefile_with (n : Z) (path : string) (uploader : option Z) : CaseFile.t :=
  {| CaseFile.id := Some 1;
     CaseFile.created_date := None;
     CaseFile.created_by := None;
     CaseFile.modified_date := None;
     CaseFile.modified_by := None;
     CaseFile.file := FieldFile.mk (Some path);
     CaseFile.case := case_with (Some n) false None None None None None;
     CaseFile.uploader_id := uploader;
     CaseFile.uploaded_date := None |}.

Definition alice : User.t := User.mk 1 "alice" true true false.
Definition bob : User.t := User.mk 2 "bob" false true false.
Definition carol : User.t := User.mk 3 "carol" true true false.

(** A user table holding alice (staff) and bob (not staff). *)
Definition users : User.table := [alice; bob].

Definition request_of (u : User.t) : Request.t :=
  Request.mk (Request.Authenticated u) "GET".

End Fixtures.

(** ** More of Python: [TypeError], [join] and [endswith] *)

Module PyType.

(** An expression that yields a value or raises [TypeError]. *)
Inductive outcome (A : Type) : Type :=
| Ok (a : A)
| TypeError.
Arguments Ok {A} a.
Arguments TypeError {A}.

(** [a + b] where [a] evaluates to a [str] (or has already raised) and [b]
    is a [str] or [None]: [str + None] raises [TypeError]. *)
Definition str_add (a : outcome string) (b : option string) : outcome string :=
  match a with
  | TypeError => TypeError
  | Ok x =>
      match b with
      | Some y => Ok (x ++ y)
      | None => TypeError
      end
  end.

(** [sep.join(l)] *)
Fixpoint join (sep : string) (l : list string) : string :=
  match l with
  | [] => ""
  | [w] => w
  | w :: ws => w ++ sep ++ join sep ws
  end.

(** [s.endswith(c)] for a character. *)
Fixpoint endswith (c : ascii) (s : string) : bool :=
  match s with
  | EmptyString => false
  | String c' EmptyString => Ascii.eqb c' c
  | String _ s' => endswith c s'
  end.

End PyType.

Import PyType.

Notation "a +' b" := (str_add a b) (at level 50, left associativity).

(** ** The other models of [models.py] *)

Module Property.

Record t : Type := mk {
  id : option Z;
  created_date : option date_attr;
  created_by : option Z;
  modified_date : option date;
  modified_by : option Z;
  street : string;
  unit : string;
  city : string;
  state : option string;
  zipcode : option string;
  subdivision : string;
  policy_number : string
}.

(** [return self.street + ", " + self.city + ", " + self.state + ", " + self.zipcode] *)
Definition __str__ (self : t) : outcome string :=
  Ok (street self) +' Some ", " +' Some (city self) +' Some ", "
    +' state self +' Some ", " +' zipcode self.

End Property.

Module Tag.

Record t : Type := mk {
  id : option Z;
  created_date : option date_attr;
  created_by : option Z;
  modified_date : option date;
  modified_by : option Z;
  name : string;
  description : string
}.

Definition __str__ (self : t) : string := name self.

End Tag.

Module CaseTag.

Record t : Type := mk {
  id : option Z;
  created_date : option date_attr;
  created_by : option Z;
  modified_date : option date;
  modified_by : option Z;
  case : Case.t;
  tag : Tag.t
}.

(** [return str(self.case) + " - " + str(self.tag)] *)
Definition __str__ (self : t) : outcome string :=
  Ok (Case.__str__ (case self)) +' Some " - " +' Some (Tag.__str__ (tag self)).

End CaseTag.

Module FieldOffice.

Record t : Type := mk {
  id : option Z;
  created_date : option date_attr;
  created_by : option Z;
  modified_date : option date;
  modified_by : option Z;
  field_office_number : string;
  field_office_name : string;
  field_agent_name : string;
  field_agent_email : string;
  city : string;
  state : option string
}.

(** [return self.city + ", " + self.state] *)
Definition __str__ (self : t) : outcome string :=
  Ok (city self) +' Some ", " +' state self.

End FieldOffice.

Module MoreFixtures.

Definition property_with (state_ zipcode_ : option string) : Property.t :=
  Property.mk (Some 1) None None None None
    "12 Dune Rd" "" "Nags Head" state_ zipcode_ "" "".

Definition office_with (state_ : option string) : FieldOffice.t :=
  FieldOffice.mk (Some 1) None None None None
    "41" "Raleigh" "" "" "Raleigh" state_.



End MoreFixtures.

(** * Properties *)

(** ** Case status *)

Section CaseStatus.

Ltac status_unfold :=
  unfold Case.status, Case._get_status, truth, option_truthy, date_truthy.

(** The decision table of [_get_status], one equation per row. *)
Lemma status_decision_table (c : Case.t) :
  Case.status c =
    match Case.close_date c, Case.final_letter_date c with
    | Some _, None => "Closed with no Final Letter"
    | Some _, Some _ => "Final"
    | None, _ =>
        match Case.fws_reviewer_signoff_date c with
        | Some _ => "Awaiting Final Letter"
        | None =>
            match Case.qc_reviewer_signoff_date c with
            | Some _ => "Awaiting FWS Review"
            | None =>
                match Case.analyst_signoff_date c with
                | Some _ => "Awaiting QC"
                | None => "Received"
                end
            end
        end
    end.
Proof.
  status_unfold.
  destruct (Case.close_date c), (Case.final_letter_date c),
    (Case.fws_reviewer_signoff_date c), (Case.qc_reviewer_signoff_date c),
    (Case.analyst_signoff_date c); reflexivity.
Qed.

(** C1. A case whose [close_date] is set has status "Closed with no Final
    Letter" when [final_letter_date] is unset and "Final" when it is set,
    whatever the three signoff dates are. *)
Theorem closed_case_status (c : Case.t) (d : date) :
  Case.close_date c = Some d ->
  (Case.final_letter_date c = None ->
     Case.status c = "Closed with no Final Letter") /\
  (forall f, Case.final_letter_date c = Some f -> Case.status c = "Final").
Proof.
  intros Hclose. rewrite status_decision_table, Hclose.
  split.
  - intros ->. reflexivity.
  - intros f ->. reflexivity.
Qed.

Lemma closed_case_status_witness :
  Case.status (Fixtures.case_with (Some 12) false Fixtures.may1 None
                 Fixtures.apr20 Fixtures.apr12 Fixtures.apr1)
    = "Closed with no Final Letter" /\
  Case.status (Fixtures.case_with (Some 12) false Fixtures.may1 Fixtures.may1
                 None None None)
    = "Final".
Proof.
  split.
  - apply (closed_case_status
             (Fixtures.case_with (Some 12) false Fixtures.may1 None
                Fixtures.apr20 Fixtures.apr12 Fixtures.apr1)
             (mkdate 2016 5 1)); reflexivity.
  - apply (closed_case_status
             (Fixtures.case_with (Some 12) false Fixtures.may1 Fixtures.may1
                None None None)
             (mkdate 2016 5 1) eq_refl) with (f := mkdate 2016 5 1).
    reflexivity.
Defined.

(** C2. With [close_date] unset the signoff dates are ranked: the FWS
    reviewer's signoff gives "Awaiting Final Letter"; failing that, the QC
    reviewer's gives "Awaiting FWS Review"; failing both, the analyst's
    gives "Awaiting QC". *)
Theorem open_case_status_precedence (c : Case.t) :
  Case.close_date c = None ->
  (forall d, Case.fws_reviewer_signoff_date c = Some d ->
     Case.status c = "Awaiting Final Letter") /\
  (forall d, Case.fws_reviewer_signoff_date c = None ->
     Case.qc_reviewer_signoff_date c = Some d ->
     Case.status c = "Awaiting FWS Review") /\
  (forall d, Case.fws_reviewer_signoff_date c = None ->
     Case.qc_reviewer_signoff_date c = None ->
     Case.analyst_signoff_date c = Some d ->
     Case.status c = "Awaiting QC").
Proof.
  intros Hopen. rewrite status_decision_table, Hopen.
  split; [ | split ].
  - intros d ->. reflexivity.
  - intros d -> ->. reflexivity.
  - intros d -> -> ->. reflexivity.
Qed.

Lemma open_case_status_precedence_witness :
  Case.status (Fixtures.case_with (Some 3) true None None
                 Fixtures.apr20 Fixtures.apr12 Fixtures.apr1)
    = "Awaiting Final Letter" /\
  Case.status (Fixtures.case_with (Some 3) true None None
                 None Fixtures.apr12 Fixtures.apr1)
    = "Awaiting FWS Review" /\
  Case.status (Fixtures.case_with (Some 3) true None None
                 None None Fixtures.apr1)
    = "Awaiting QC".
Proof.
  split; [ | split ].
  - apply (proj1 (open_case_status_precedence
                    (Fixtures.case_with (Some 3) true None None
                       Fixtures.apr20 Fixtures.apr12 Fixtures.apr1) eq_refl)
             (mkdate 2016 4 20)).
    reflexivity.
  - apply (proj1 (proj2 (open_case_status_precedence
                    (Fixtures.case_with (Some 3) true None None
                       None Fixtures.apr12 Fixtures.apr1) eq_refl))
             (mkdate 2016 4 12)); reflexivity.
  - apply (proj2 (proj2 (open_case_status_precedence
                    (Fixtures.case_with (Some 3) true None None
                       None None Fixtures.apr1) eq_refl))
             (mkdate 2016 4 1)); reflexivity.
Defined.

(** Every status is one of the six labels. *)
Lemma status_in_labels (c : Case.t) : In (Case.status c) Case.status_labels.
Proof.
  rewrite status_decision_table. unfold Case.status_labels.
  destruct (Case.close_date c), (Case.final_letter_date c),
    (Case.fws_reviewer_signoff_date c), (Case.qc_reviewer_signoff_date c),
    (Case.analyst_signoff_date c); simpl; tauto.
Qed.

(** C4. Status derivation is total: whatever the five date fields hold,
    the accessor yields a label of the decision table, and with all five
    unset that label is "Received". *)
Theorem status_total (c : Case.t) :
  (exists s, Case.status c = s /\ In s Case.status_labels) /\
  (Case.close_date c = None ->
   Case.final_letter_date c = None ->
   Case.fws_reviewer_signoff_date c = None ->
   Case.qc_reviewer_signoff_date c = None ->
   Case.analyst_signoff_date c = None ->
   Case.status c = "Received").
Proof.
  split.
  - exists (Case.status c). split; [ reflexivity | apply status_in_labels ].
  - intros Hc Hf Hw Hq Ha.
    rewrite status_decision_table, Hc, Hw, Hq, Ha. reflexivity.
Qed.

Lemma status_total_witness :
  Case.status (Fixtures.case_with None false None None None None None)
    = "Received".
Proof.
  apply (proj2 (status_total
                  (Fixtures.case_with None false None None None None None)));
    reflexivity.
Defined.

(** C5. The status depends on the five milestone fields only: two cases
    that agree on them have the same status, whatever else differs. *)
Theorem status_depends_on_five_fields (c1 c2 : Case.t) :
  Case.close_date c1 = Case.close_date c2 ->
  Case.final_letter_date c1 = Case.final_letter_date c2 ->
  Case.fws_reviewer_signoff_date c1 = Case.fws_reviewer_signoff_date c2 ->
  Case.qc_reviewer_signoff_date c1 = Case.qc_reviewer_signoff_date c2 ->
  Case.analyst_signoff_date c1 = Case.analyst_signoff_date c2 ->
  Case.status c1 = Case.status c2.
Proof.
  intros Hc Hf Hw Hq Ha.
  rewrite !status_decision_table, Hc, Hf, Hw, Hq, Ha. reflexivity.
Qed.

Lemma status_depends_on_five_fields_witness :
  Case.status (Fixtures.case_with (Some 41) false None None
                 None Fixtures.apr12 Fixtures.apr1)
  = Case.status (Fixtures.case_with (Some 58) true None None
                   None Fixtures.apr12 Fixtures.apr1).
Proof.
  apply (status_depends_on_five_fields
           (Fixtures.case_with (Some 41) false None None
              None Fixtures.apr12 Fixtures.apr1)
           (Fixtures.case_with (Some 58) true None None
              None Fixtures.apr12 Fixtures.apr1)); reflexivity.
Defined.

(** C6. The status accessor returns one of six strings and nothing else:
    every status is in the list of six, the six are pairwise different,
    and each of them is the status of some case. *)
Theorem status_exactly_six_labels :
  (forall c, In (Case.status c) Case.status_labels) /\
  Case.status_labels =
    [ "Closed with no Final Letter"; "Final"; "Awaiting Final Letter";
      "Awaiting FWS Review"; "Awaiting QC"; "Received" ] /\
  NoDup Case.status_labels /\
  Forall (fun s => exists c, Case.status c = s) Case.status_labels.
Proof.
  split; [ exact status_in_labels | ].
  split; [ reflexivity | ].
  split.
  - unfold Case.status_labels.
    repeat (constructor; [ simpl; intuition discriminate | ]).
    constructor.
  - unfold Case.status_labels.
    repeat constructor.
    + exists (Fixtures.case_with None false Fixtures.may1 None None None None).
      reflexivity.
    + exists (Fixtures.case_with None false Fixtures.may1 Fixtures.may1
                None None None).
      reflexivity.
    + exists (Fixtures.case_with None false None None Fixtures.apr20 None None).
      reflexivity.
    + exists (Fixtures.case_with None false None None None Fixtures.apr12 None).
      reflexivity.
    + exists (Fixtures.case_with None false None None None None Fixtures.apr1).
      reflexivity.
    + exists (Fixtures.case_with None false None None None None None).
      reflexivity.
Qed.

End CaseStatus.

(** ** The staff permission *)

Section StaffPermission.

Implicit Types (db : User.table) (name : string) (u : User.t).

(** A lookup by a name no row carries selects nothing. *)
Lemma objects_filter_absent db name :
  (forall u, In u db -> User.username u <> name) ->
  User.objects_filter db name = [].
Proof.
  unfold User.objects_filter.
  induction db as [ | a rows IH ]; intros Habs; [ reflexivity | ].
  simpl. destruct (String.eqb_spec (User.username a) name) as [ E | _ ].
  - exfalso. apply (Habs a); [ left; reflexivity | exact E ].
  - apply IH. intros u Hu. apply Habs. right. exact Hu.
Qed.

(** Under the uniqueness constraint a lookup by the name of a stored row
    selects that row alone. *)
Lemma objects_filter_present db name u :
  User.unique_usernames db ->
  In u db -> User.username u = name ->
  User.objects_filter db name = [u].
Proof.
  unfold User.unique_usernames.
  induction db as [ | a rows IH ]; intros Huniq Hin Hname; [ destruct Hin | ].
  simpl in Huniq. inversion Huniq as [ | x xs Hfresh Hrest ]; subst x xs.
  unfold User.objects_filter. simpl. destruct Hin as [ -> | Hin ].
  - rewrite (proj2 (String.eqb_eq _ _) Hname). f_equal.
    apply objects_filter_absent.
    intros v Hv E. apply Hfresh. rewrite Hname, <- E.
    apply in_map. exact Hv.
  - destruct (String.eqb_spec (User.username a) name) as [ E | _ ].
    + exfalso. apply Hfresh. rewrite E, <- Hname.
      apply in_map. exact Hin.
    + apply IH; assumption.
Qed.

Lemma objects_get_absent db name :
  (forall u, In u db -> User.username u <> name) ->
  User.objects_get db name = Raise ObjectDoesNotExist.
Proof.
  intros Habs. unfold User.objects_get.
  rewrite (objects_filter_absent db name Habs). reflexivity.
Qed.

Lemma objects_get_present db name u :
  User.unique_usernames db ->
  In u db -> User.username u = name ->
  User.objects_get db name = Return u.
Proof.
  intros Huniq Hin Hname. unfold User.objects_get.
  rewrite (objects_filter_present db name u Huniq Hin Hname). reflexivity.
Qed.

(** Either some row carries the name or none does. *)
Lemma username_lookup_cases db name :
  (exists u, In u db /\ User.username u = name) \/
  (forall u, In u db -> User.username u <> name).
Proof.
  destruct (in_dec string_dec name (map User.username db)) as [ Hin | Hout ].
  - left. apply in_map_iff in Hin. destruct Hin as [ u [ E Hu ] ].
    exists u. split; assumption.
  - right. intros u Hu E. apply Hout. rewrite <- E. apply in_map. exact Hu.
Qed.

End StaffPermission.

(** C3. On a user table that respects the uniqueness of user names, the
    access check returns [True] exactly when a row matching the acting
    identity exists and is marked staff; when no row matches it returns
    [False]; and it never raises. *)
Theorem has_permission_iff_staff
    (db : User.table) (request : Request.t) (view : string) :
  User.unique_usernames db ->
  (IsStaff.has_permission db request view = Return true <->
     exists u, In u db /\
               User.username u = Request.user_str (Request.user request) /\
               User.is_staff u = true) /\
  ((forall u, In u db ->
      User.username u <> Request.user_str (Request.user request)) ->
   IsStaff.has_permission db request view = Return false) /\
  (exists b, IsStaff.has_permission db request view = Return b).
Proof.
  intros Huniq. unfold IsStaff.has_permission.
  set (who := Request.user_str (Request.user request)).
  destruct (username_lookup_cases db who) as [ [ u [ Hu Hname ] ] | Habs ].
  - rewrite (objects_get_present db who u Huniq Hu Hname). simpl.
    split; [ split | split ].
    + intros E. exists u. repeat split; [ exact Hu | exact Hname | congruence ].
    + intros [ u' [ Hu' [ Hname' Hstaff ] ] ].
      pose proof (objects_get_present db who u' Huniq Hu' Hname') as G'.
      rewrite (objects_get_present db who u Huniq Hu Hname) in G'.
      injection G' as ->. rewrite Hstaff. reflexivity.
    + intros Hnone. exfalso. exact (Hnone u Hu Hname).
    + exists (User.is_staff u). reflexivity.
  - rewrite (objects_get_absent db who Habs). simpl.
    split; [ split | split ].
    + discriminate.
    + intros [ u [ Hu [ Hname _ ] ] ]. exfalso. exact (Habs u Hu Hname).
    + intros _. reflexivity.
    + exists false. reflexivity.
Qed.

Lemma has_permission_iff_staff_witness :
  User.unique_usernames Fixtures.users /\
  IsStaff.has_permission Fixtures.users (Fixtures.request_of Fixtures.alice) "cases"
    = Return true /\
  IsStaff.has_permission Fixtures.users (Fixtures.request_of Fixtures.carol) "cases"
    = Return false.
Proof.
  assert (U : User.unique_usernames Fixtures.users).
  { unfold User.unique_usernames. simpl.
    constructor; [ simpl; intuition discriminate | ].
    constructor; [ simpl; intuition discriminate | ].
    constructor. }
  split; [ exact U | split ].
  - apply (proj1 (has_permission_iff_staff Fixtures.users
                    (Fixtures.request_of Fixtures.alice) "cases" U)).
    exists Fixtures.alice. simpl. auto.
  - apply (proj1 (proj2 (has_permission_iff_staff Fixtures.users
                    (Fixtures.request_of Fixtures.carol) "cases" U))).
    simpl. intros u [ <- | [ <- | [] ] ]; discriminate.
Defined.

(** The three identities of the specification's access scenario. *)
Example access_scenario :
  IsStaff.has_permission Fixtures.users (Fixtures.request_of Fixtures.alice) "cases"
    = Return true /\
  IsStaff.has_permission Fixtures.users (Fixtures.request_of Fixtures.bob) "cases"
    = Return false /\
  IsStaff.has_permission Fixtures.users (Fixtures.request_of Fixtures.carol) "cases"
    = Return false.
Proof. repeat split. Qed.

(** Without the uniqueness constraint the lookup raises, and the permission
    with it: only [ObjectDoesNotExist] is handled. *)
Example duplicate_rows_raise :
  IsStaff.has_permission [Fixtures.alice; Fixtures.alice]
    (Fixtures.request_of Fixtures.alice) "cases"
  = Raise MultipleObjectsReturned.
Proof. reflexivity. Qed.

(** ** Strings: decimal formatting and [split] *)

Section PyStrings.

(** [int(str(n)) == n] *)
Lemma int_str_str_int (n : Z) : int_str (str_int n) = Some n.
Proof.
  unfold int_str, str_int.
  rewrite NilZero.isi.
  - simpl. rewrite DecimalZ.of_to. reflexivity.
  - destruct n as [ | p | p ]; simpl; try discriminate.
    intros [= E]. exact (DecimalPos.Unsigned.to_uint_nonnil p E).
  - destruct n as [ | p | p ]; simpl; try discriminate.
    intros [= E]. exact (DecimalPos.Unsigned.to_uint_nonnil p E).
Qed.

Lemma str_int_inj (n m : Z) : str_int n = str_int m -> n = m.
Proof.
  intros E. apply (f_equal int_str) in E.
  rewrite !int_str_str_int in E. congruence.
Qed.

Lemma append_cancel_l (p a b : string) : p ++ a = p ++ b -> a = b.
Proof.
  induction p as [ | c p IH ]; simpl; [ auto | ].
  intros [= E]. auto.
Qed.

Variable sep : ascii.

(** A string without the separator is its own single field. *)
Lemma split_without_sep (s : string) :
  contains sep s = false -> split sep s = [s].
Proof.
  induction s as [ | c s IH ]; simpl; [ reflexivity | ].
  intros H. apply orb_false_iff in H. destruct H as [ Hc Hs ].
  rewrite Hc, (IH Hs). reflexivity.
Qed.

(** A string with the separator has at least two fields, and the last
    one is what follows the last separator. *)
Lemma split_with_sep (s : string) :
  contains sep s = true ->
  exists dir n w1 w2 ws,
    s = dir ++ String sep n /\
    contains sep n = false /\
    split sep s = w1 :: w2 :: ws /\
    getitem_last (split sep s) = Return n.
Proof.
  induction s as [ | c s IH ]; simpl; [ discriminate | ].
  destruct (Ascii.eqb_spec c sep) as [ -> | Hne ]; simpl.
  - intros _. destruct (contains sep s) eqn:Hs.
    + destruct (IH eq_refl) as (dir & n & w1 & w2 & ws & E & Hn & Hsp & Hl).
      exists (String sep dir), n, "", w1, (w2 :: ws).
      rewrite Hsp in *. repeat split; try assumption.
      simpl. f_equal. exact E.
    + exists "", s, "", s, []. rewrite (split_without_sep s Hs).
      repeat split. exact Hs.
  - intros Hs.
    destruct (IH Hs) as (dir & n & w1 & w2 & ws & E & Hn & Hsp & Hl).
    exists (String c dir), n, (String c w1), w2, ws.
    rewrite Hsp in *. repeat split; try assumption.
    simpl. f_equal. exact E.
Qed.

End PyStrings.

Example split_examples :
  split "/" "casefiles/12/requester/map.pdf"
    = ["casefiles"; "12"; "requester"; "map.pdf"] /\
  split "/" "/a" = [""; "a"] /\
  split "/" "a/" = ["a"; ""] /\
  split "/" "" = [""] /\
  split "/" "map.pdf" = ["map.pdf"].
Proof. repeat split. Qed.

Example str_int_examples :
  str_int 12 = "12" /\ str_int 0 = "0" /\ str_int (-5) = "-5" /\
  format_s_id None = "None".
Proof. repeat split. Qed.

(** ** Case number *)

(** C9. The case number is the case's id formatted as a string, and so is
    the string form of the case; it is read off the id alone (two cases
    with the same id have the same number), and for a saved case it is the
    decimal text of the id, which reads back as that id. *)
Theorem case_number_is_id_string (c : Case.t) :
  Case.case_number c = format_s_id (Case.id c) /\
  Case.__str__ c = format_s_id (Case.id c) /\
  (forall c', Case.id c' = Case.id c -> Case.case_number c' = Case.case_number c) /\
  (forall n, Case.id c = Some n ->
     Case.case_number c = str_int n /\
     Case.__str__ c = str_int n /\
     int_str (Case.case_number c) = Some n).
Proof.
  unfold Case.__str__, Case.case_number, Case._get_id.
  split; [ reflexivity | ].
  split; [ reflexivity | ].
  split.
  - intros c' ->. reflexivity.
  - intros n ->. simpl. rewrite int_str_str_int. repeat split.
Qed.

Lemma case_number_is_id_string_witness :
  Case.case_number (Fixtures.case_with (Some 12) true None None None None None)
    = "12" /\
  Case.case_number (Fixtures.case_with (Some 12) false Fixtures.may1 None None None None)
    = Case.case_number (Fixtures.case_with (Some 12) true None None None None None).
Proof.
  pose proof (case_number_is_id_string
                (Fixtures.case_with (Some 12) true None None None None None))
    as (_ & _ & Hsame & Hdec).
  split.
  - exact (proj1 (Hdec 12 eq_refl)).
  - apply Hsame. reflexivity.
Defined.

(** ** Default of [request_date] *)

(** The default of [request_date] is the date on which the module was
    imported, whenever the case is created. *)
Lemma request_date_default_is_import_date
    (loaded now : datetime) (requester property : Z) :
  Case.request_date (Case.init loaded now None requester property)
    = date_of loaded.
Proof. reflexivity. Qed.

(** [created_date], declared with the callable, follows the clock: the new
    instance holds the [datetime] of its creation, of which the column
    keeps the date. *)
Lemma created_date_default_is_creation_date
    (loaded now : datetime) (rd : option date) (requester property : Z) :
  Case.created_date (Case.init loaded now rd requester property)
    = Some (Datetime now) /\
  option_map Field.date_to_python
    (Case.created_date (Case.init loaded now rd requester property))
    = Some (date_of now).
Proof. split; reflexivity. Qed.

(** The migration generated on 2016-04-08 froze that day's date. *)
Lemma migration_0009_default :
  Migration0009.request_date_default
    = Case.request_date_default Fixtures.apr8_0902.
Proof. reflexivity. Qed.

(** C7. A case created on 2016-04-09, without a [request_date], by a
    process that imported the models on 2016-04-08 gets 2016-04-08 as its
    request date, not the day of its creation, while its [created_date]
    holds the moment of its creation, 2016-04-09 10:30, saved as
    2016-04-09. *)
Theorem request_date_default_stale :
  Case.request_date
    (Case.init Fixtures.apr8_0902 Fixtures.apr9_1030 None 1 1)
    = mkdate 2016 4 8 /\
  Case.request_date
    (Case.init Fixtures.apr8_0902 Fixtures.apr9_1030 None 1 1)
    <> date_of Fixtures.apr9_1030 /\
  Case.created_date
    (Case.init Fixtures.apr8_0902 Fixtures.apr9_1030 None 1 1)
    = Some (Datetime Fixtures.apr9_1030) /\
  option_map Field.date_to_python
    (Case.created_date
       (Case.init Fixtures.apr8_0902 Fixtures.apr9_1030 None 1 1))
    = Some (mkdate 2016 4 9).
Proof.
  split; [ reflexivity | split; [ discriminate | split; reflexivity ] ].
Qed.

(** ** Case files *)

(** C8. The location of a case file starts with the folder of its case,
    named by the case's id; a file without uploader goes to the
    [requester] folder inside it, a file whose uploader is a user id other
    than 0 goes directly into the case folder, and for one case the two
    locations differ when the file names are the same or when the staff
    file name is a plain name without [/]. *)
Theorem casefile_location_groups (cf : CaseFile.t) (filename : string) :
  (exists rest,
     CaseFile.casefile_location cf filename
       = "casefiles/" ++ format_s_id (Case.id (CaseFile.case cf)) ++ "/" ++ rest) /\
  (CaseFile.uploader_id cf = None ->
     CaseFile.casefile_location cf filename
       = "casefiles/" ++ format_s_id (Case.id (CaseFile.case cf))
           ++ "/requester/" ++ filename) /\
  (forall u, CaseFile.uploader_id cf = Some u -> u <> 0 ->
     CaseFile.casefile_location cf filename
       = "casefiles/" ++ format_s_id (Case.id (CaseFile.case cf))
           ++ "/" ++ filename) /\
  (forall cf' u filename',
     CaseFile.case cf' = CaseFile.case cf ->
     CaseFile.uploader_id cf = None ->
     CaseFile.uploader_id cf' = Some u -> u <> 0 ->
     filename' = filename \/ contains "/" filename' = false ->
     CaseFile.casefile_location cf filename
       <> CaseFile.casefile_location cf' filename').
Proof.
  assert (Hreq : CaseFile.uploader_id cf = None ->
     CaseFile.casefile_location cf filename
       = "casefiles/" ++ format_s_id (Case.id (CaseFile.case cf))
           ++ "/requester/" ++ filename).
  { intros E. unfold CaseFile.casefile_location. rewrite E. reflexivity. }
  assert (Hstaff : forall (x : CaseFile.t) f u,
     CaseFile.uploader_id x = Some u -> u <> 0 ->
     CaseFile.casefile_location x f
       = "casefiles/" ++ format_s_id (Case.id (CaseFile.case x)) ++ "/" ++ f).
  { intros x f u E Hu. unfold CaseFile.casefile_location. rewrite E.
    cbv [truth option_truthy int_truthy].
    rewrite (proj2 (Z.eqb_neq u 0) Hu). reflexivity. }
  split; [ | split; [ exact Hreq | split ] ].
  - unfold CaseFile.casefile_location.
    destruct (negb (truth (CaseFile.uploader_id cf))).
    + exists ("requester/" ++ filename). reflexivity.
    + exists filename. reflexivity.
  - intros u. apply Hstaff.
  - intros cf' u filename' Hcase Hnone Hsome Hu Hname.
    rewrite (Hreq Hnone), (Hstaff cf' filename' u Hsome Hu), Hcase.
    intros E. apply (append_cancel_l "casefiles/") in E.
    apply append_cancel_l in E. injection E as E.
    destruct Hname as [ -> | Hplain ].
    + apply (f_equal String.length) in E. simpl in E. lia.
    + rewrite <- E in Hplain. discriminate.
Qed.

Lemma casefile_location_groups_witness :
  CaseFile.casefile_location (Fixtures.casefile_with 12 "" None) "map.pdf"
    = "casefiles/12/requester/map.pdf" /\
  CaseFile.casefile_location (Fixtures.casefile_with 12 "" (Some 4)) "map.pdf"
    = "casefiles/12/map.pdf" /\
  CaseFile.casefile_location (Fixtures.casefile_with 12 "" None) "map.pdf"
    <> CaseFile.casefile_location (Fixtures.casefile_with 12 "" (Some 4)) "deed.pdf".
Proof.
  pose proof (casefile_location_groups
                (Fixtures.casefile_with 12 "" None) "map.pdf")
    as (_ & Hreq & _ & Hdiff).
  pose proof (casefile_location_groups
                (Fixtures.casefile_with 12 "" (Some 4)) "map.pdf")
    as (_ & _ & Hstaff & _).
  split; [ | split ].
  - apply Hreq. reflexivity.
  - apply (Hstaff 4); [ reflexivity | lia ].
  - apply (Hdiff (Fixtures.casefile_with 12 "" (Some 4)) 4 "deed.pdf");
      [ reflexivity | reflexivity | reflexivity | lia | right; reflexivity ].
Defined.

(** The test [not instance.uploader_id] is also true of the integer 0. *)
Example casefile_location_uploader_zero :
  CaseFile.casefile_location (Fixtures.casefile_with 12 "" (Some 0)) "map.pdf"
    = "casefiles/12/requester/map.pdf".
Proof. reflexivity. Qed.

(** C8 without its two conditions does not hold. The location does not
    always tell a requester upload from an upload with an uploader: for one
    case and one file name, uploader id 0 gives the requester's location;
    and a file that user 4 uploads under the name [requester/map.pdf] gets
    the location of the requester's [map.pdf]. *)
Lemma casefile_role_folders_collide :
  ~ (forall (req staff : CaseFile.t) (f : string),
       CaseFile.case req = CaseFile.case staff ->
       CaseFile.uploader_id req = None ->
       CaseFile.uploader_id staff <> None ->
       CaseFile.casefile_location req f
         <> CaseFile.casefile_location staff f) /\
  ~ (forall (req staff : CaseFile.t) (f g : string) (u : Z),
       CaseFile.case req = CaseFile.case staff ->
       CaseFile.uploader_id req = None ->
       CaseFile.uploader_id staff = Some u -> u <> 0 ->
       CaseFile.casefile_location req f
         <> CaseFile.casefile_location staff g) /\
  CaseFile.casefile_location (Fixtures.casefile_with 12 "" None) "map.pdf"
    = CaseFile.casefile_location (Fixtures.casefile_with 12 "" (Some 0)) "map.pdf" /\
  CaseFile.casefile_location (Fixtures.casefile_with 12 "" None) "map.pdf"
    = CaseFile.casefile_location (Fixtures.casefile_with 12 "" (Some 4))
        "requester/map.pdf".
Proof.
  split; [ | split; [ | split; reflexivity ] ].
  - intros H.
    apply (H (Fixtures.casefile_with 12 "" None)
             (Fixtures.casefile_with 12 "" (Some 0)) "map.pdf");
      [ reflexivity | reflexivity | discriminate | reflexivity ].
  - intros H.
    apply (H (Fixtures.casefile_with 12 "" None)
             (Fixtures.casefile_with 12 "" (Some 4))
             "map.pdf" "requester/map.pdf" 4);
      [ reflexivity | reflexivity | reflexivity | lia | reflexivity ].
Qed.

(** C10. The name of a case file is what follows the last [/] of the stored
    path: the accessor returns a string without [/] that ends the path
    right after a [/], and the whole path when the path has no [/]. *)
Theorem casefile_name_after_last_slash (cf : CaseFile.t) :
  exists n,
    CaseFile.name cf = Return n /\
    CaseFile.__str__ cf = Return n /\
    contains "/" n = false /\
    (contains "/" (FieldFile.__str__ (CaseFile.file cf)) = true ->
       exists dir, FieldFile.__str__ (CaseFile.file cf) = dir ++ "/" ++ n) /\
    (contains "/" (FieldFile.__str__ (CaseFile.file cf)) = false ->
       n = FieldFile.__str__ (CaseFile.file cf)).
Proof.
  unfold CaseFile.__str__, CaseFile.name, CaseFile._get_filename.
  set (stored := FieldFile.__str__ (CaseFile.file cf)).
  destruct (contains "/" stored) eqn:Hslash.
  - destruct (split_with_sep "/" stored Hslash)
      as (dir & n & w1 & w2 & ws & E & Hn & _ & Hlast).
    exists n. rewrite Hlast. simpl.
    repeat split; try assumption.
    + intros _. exists dir. exact E.
    + discriminate.
  - exists stored. rewrite (split_without_sep "/" stored Hslash). simpl.
    repeat split; try assumption.
    discriminate.
Qed.

Lemma casefile_name_after_last_slash_witness :
  (exists n dir,
     CaseFile.name
       (Fixtures.casefile_with 12 "casefiles/12/requester/map.pdf" None)
       = Return n /\
     contains "/" n = false /\
     "casefiles/12/requester/map.pdf" = dir ++ "/" ++ n) /\
  CaseFile.name (Fixtures.casefile_with 12 "map.pdf" (Some 4))
    = Return "map.pdf".
Proof.
  split.
  - destruct (casefile_name_after_last_slash
                (Fixtures.casefile_with 12 "casefiles/12/requester/map.pdf" None))
      as (n & Hname & _ & Hplain & Hdir & _).
    destruct (Hdir eq_refl) as (dir & E).
    exists n, dir. split; [ exact Hname | split; [ exact Hplain | exact E ] ].
  - destruct (casefile_name_after_last_slash
                (Fixtures.casefile_with 12 "map.pdf" (Some 4)))
      as (n & Hname & _ & _ & _ & Hwhole).
    rewrite Hname. f_equal. apply Hwhole. reflexivity.
Defined.

Example casefile_name_examples :
  CaseFile.name (Fixtures.casefile_with 12 "casefiles/12/requester/map.pdf" None)
    = Return "map.pdf" /\
  CaseFile.name (Fixtures.casefile_with 12 "casefiles/12/" None) = Return "" /\
  CaseFile.name (Fixtures.casefile_with 12 "" None) = Return "".
Proof. repeat split. Qed.

(** * Further properties of the code *)

(** ** Reading the fields back from the status *)

Section StatusInversion.

Ltac by_decision_table c :=
  rewrite (status_decision_table c);
  destruct (Case.close_date c), (Case.final_letter_date c),
    (Case.fws_reviewer_signoff_date c), (Case.qc_reviewer_signoff_date c),
    (Case.analyst_signoff_date c).

(** X1. Each label is returned under exactly one condition on the dates, so
    the status tells which milestone fields are set: for instance "Received"
    means that [close_date] and the three signoff dates are all unset,
    whatever [final_letter_date] holds. *)
Theorem status_inversion (c : Case.t) :
  (Case.status c = "Closed with no Final Letter" <->
     Case.close_date c <> None /\ Case.final_letter_date c = None) /\
  (Case.status c = "Final" <->
     Case.close_date c <> None /\ Case.final_letter_date c <> None) /\
  (Case.status c = "Awaiting Final Letter" <->
     Case.close_date c = None /\ Case.fws_reviewer_signoff_date c <> None) /\
  (Case.status c = "Awaiting FWS Review" <->
     Case.close_date c = None /\ Case.fws_reviewer_signoff_date c = None /\
     Case.qc_reviewer_signoff_date c <> None) /\
  (Case.status c = "Awaiting QC" <->
     Case.close_date c = None /\ Case.fws_reviewer_signoff_date c = None /\
     Case.qc_reviewer_signoff_date c = None /\
     Case.analyst_signoff_date c <> None) /\
  (Case.status c = "Received" <->
     Case.close_date c = None /\ Case.fws_reviewer_signoff_date c = None /\
     Case.qc_reviewer_signoff_date c = None /\
     Case.analyst_signoff_date c = None).
Proof.
  by_decision_table c;
    repeat match goal with |- _ /\ _ => split end;
    split; intros H; try discriminate H;
    repeat match goal with
           | H : _ /\ _ |- _ => destruct H
           | H : ?x <> ?x |- _ => destruct (H eq_refl)
           | H : Some _ = None |- _ => discriminate H
           | |- _ /\ _ => split
           | |- Some _ <> None => discriminate
           | |- _ = _ => reflexivity
           end.
Qed.

Lemma status_inversion_witness :
  Case.close_date
    (Fixtures.case_with (Some 5) false None Fixtures.may1 None None None) = None /\
  Case.status
    (Fixtures.case_with (Some 5) false None Fixtures.may1 None None None)
    = "Received".
Proof.
  pose proof (status_inversion
                (Fixtures.case_with (Some 5) false None Fixtures.may1 None None None))
    as (_ & _ & _ & _ & _ & Hreceived).
  split; [ reflexivity | ].
  apply (proj2 Hreceived). repeat split.
Defined.

(** X2. While [close_date] is unset, [final_letter_date] plays no part: two
    open cases with the same three signoff dates have the same status, even
    if only one of them has a final letter date. *)
Theorem open_status_ignores_final_letter (c1 c2 : Case.t) :
  Case.close_date c1 = None ->
  Case.close_date c2 = None ->
  Case.fws_reviewer_signoff_date c1 = Case.fws_reviewer_signoff_date c2 ->
  Case.qc_reviewer_signoff_date c1 = Case.qc_reviewer_signoff_date c2 ->
  Case.analyst_signoff_date c1 = Case.analyst_signoff_date c2 ->
  Case.status c1 = Case.status c2.
Proof.
  intros H1 H2 Hw Hq Ha.
  rewrite !status_decision_table, H1, H2, Hw, Hq, Ha. reflexivity.
Qed.

Lemma open_status_ignores_final_letter_witness :
  Case.status
    (Fixtures.case_with (Some 5) false None Fixtures.may1 None None Fixtures.apr1)
  = Case.status
      (Fixtures.case_with (Some 5) false None None None None Fixtures.apr1).
Proof.
  apply (open_status_ignores_final_letter
           (Fixtures.case_with (Some 5) false None Fixtures.may1 None None Fixtures.apr1)
           (Fixtures.case_with (Some 5) false None None None None Fixtures.apr1));
    reflexivity.
Defined.

(** X3. A case built by the model constructor, with or without an explicit
    request date and at any clock time, has no id yet, so its case number
    is the text "None", and its status is "Received". *)
Theorem new_case_is_received
    (loaded now : datetime) (rd : option date) (requester property : Z) :
  Case.status (Case.init loaded now rd requester property) = "Received" /\
  Case.case_number (Case.init loaded now rd requester property) = "None".
Proof.
  split.
  - rewrite status_decision_table. reflexivity.
  - reflexivity.
Qed.

End StatusInversion.

(** ** Characters of a case number *)

Section CaseNumberText.

Lemma contains_append (c : ascii) (a b : string) :
  contains c (a ++ b) = contains c a || contains c b.
Proof.
  induction a as [ | x a IH ]; simpl; [ reflexivity | ].
  rewrite IH. apply orb_assoc.
Qed.

Lemma append_assoc (a b c : string) : (a ++ b) ++ c = a ++ (b ++ c).
Proof. induction a as [ | x a IH ]; simpl; [ reflexivity | now rewrite IH ]. Qed.

Lemma contains_cons (c x : ascii) (s : string) :
  contains c (String x s) = Ascii.eqb x c || contains c s.
Proof. reflexivity. Qed.

(** A character found in [String x s] is [x] or is found in [s]. *)
Lemma contains_cons_inv (c x : ascii) (s : string) :
  contains c (String x s) = true -> x = c \/ contains c s = true.
Proof.
  rewrite contains_cons. intros H. apply orb_true_iff in H.
  destruct H as [ H | H ]; [ left; apply Ascii.eqb_eq; exact H | right; exact H ].
Qed.

(** The decimal digits of an unsigned number. *)
Lemma uint_chars (d : Decimal.uint) (c : ascii) :
  contains c (NilEmpty.string_of_uint d) = true ->
  contains c "0123456789" = true.
Proof.
  induction d as [ | d IH | d IH | d IH | d IH | d IH
                   | d IH | d IH | d IH | d IH | d IH ];
    cbn [NilEmpty.string_of_uint]; intros H; try discriminate H;
    (apply contains_cons_inv in H; destruct H as [ <- | H ];
     [ reflexivity | exact (IH H) ]).
Qed.

(** [str(n)] is made of digits and at most a leading minus sign. *)
Lemma str_int_chars (n : Z) (c : ascii) :
  contains c (str_int n) = true -> contains c "-0123456789" = true.
Proof.
  assert (D : contains c "0123456789" = true ->
              contains c "-0123456789" = true).
  { intros H. rewrite contains_cons, H. apply orb_true_r. }
  assert (U : forall d, contains c (NilZero.string_of_uint d) = true ->
                        contains c "0123456789" = true).
  { intros d. destruct d; try apply uint_chars.
    cbn [NilZero.string_of_uint]. intros H.
    apply contains_cons_inv in H. destruct H as [ <- | H ];
      [ reflexivity | discriminate H ]. }
  unfold str_int. destruct (Z.to_int n) as [ d | d ]; cbn [NilZero.string_of_int].
  - intros H. apply D. apply (U d H).
  - intros H. apply contains_cons_inv in H. destruct H as [ <- | H ].
    + reflexivity.
    + apply D. apply (U d H).
Qed.

(** What ['%s' % self.id] can contain. *)
Lemma format_s_id_chars (x : option Z) (c : ascii) :
  contains c (format_s_id x) = true -> contains c "-0123456789None" = true.
Proof.
  destruct x as [ n | ]; simpl format_s_id.
  - intros H. apply str_int_chars in H.
    change "-0123456789None" with ("-0123456789" ++ "None").
    rewrite contains_append, H. reflexivity.
  - intros H. change "-0123456789None" with ("-0123456789" ++ "None").
    rewrite contains_append, H. apply orb_true_r.
Qed.

Lemma format_s_id_lacks (x : option Z) (c : ascii) :
  contains c "-0123456789None" = false -> contains c (format_s_id x) = false.
Proof.
  intros H. destruct (contains c (format_s_id x)) eqn:E; [ | reflexivity ].
  apply format_s_id_chars in E. congruence.
Qed.

Lemma format_s_id_inj (x y : option Z) : format_s_id x = format_s_id y -> x = y.
Proof.
  assert (N : forall n, str_int n <> "None").
  { intros n E. apply (f_equal int_str) in E.
    rewrite int_str_str_int in E. discriminate E. }
  destruct x as [ n | ], y as [ m | ]; simpl; intros E.
  - f_equal. apply str_int_inj. exact E.
  - destruct (N n E).
  - destruct (N m (eq_sym E)).
  - reflexivity.
Qed.

(** Two texts that agree after a separator-free head agree piecewise. *)
Lemma append_sep_inj (sep : ascii) (a b x y : string) :
  contains sep a = false -> contains sep b = false ->
  a ++ String sep x = b ++ String sep y -> a = b /\ x = y.
Proof.
  revert b. induction a as [ | c a IH ]; intros [ | c' b ]; simpl; intros Ha Hb E.
  - injection E as E. auto.
  - injection E as E1 E2. subst c'. rewrite Ascii.eqb_refl in Hb. discriminate Hb.
  - injection E as E1 E2. subst c. rewrite Ascii.eqb_refl in Ha. discriminate Ha.
  - injection E as E1 E2. subst c'.
    apply orb_false_iff in Ha. apply orb_false_iff in Hb.
    destruct (IH b (proj2 Ha) (proj2 Hb) E2) as [ -> -> ]. auto.
Qed.

End CaseNumberText.

(** X4. The case number identifies the case: two cases have the same case
    number exactly when they have the same id (saved or not), and a case
    number never contains a [/] or a space. *)
Theorem case_number_injective (c1 c2 : Case.t) :
  (Case.case_number c1 = Case.case_number c2 <-> Case.id c1 = Case.id c2) /\
  contains "/" (Case.case_number c1) = false /\
  contains " " (Case.case_number c1) = false.
Proof.
  unfold Case.case_number, Case._get_id.
  split; [ split | split ].
  - apply format_s_id_inj.
  - intros ->. reflexivity.
  - apply format_s_id_lacks. reflexivity.
  - apply format_s_id_lacks. reflexivity.
Qed.

Lemma case_number_injective_witness :
  Case.id (Fixtures.case_with (Some 12) true None None None None None)
  = Case.id (Fixtures.case_with (Some 12) false Fixtures.may1 None None None None).
Proof.
  apply (proj1 (proj1 (case_number_injective
           (Fixtures.case_with (Some 12) true None None None None None)
           (Fixtures.case_with (Some 12) false Fixtures.may1 None None None None)))).
  reflexivity.
Defined.

(** ** More about [split] *)

Section SplitFacts.

Variable sep : ascii.

Lemma split_nonempty (s : string) : exists w ws, split sep s = w :: ws.
Proof.
  destruct s as [ | c s ]; simpl; [ eauto | ].
  destruct (Ascii.eqb c sep); [ eauto | ].
  destruct (split sep s); eauto.
Qed.

(** A separator-free head is the first field. *)
Lemma split_head (a rest : string) :
  contains sep a = false ->
  split sep (a ++ String sep rest) = a :: split sep rest.
Proof.
  induction a as [ | c a IH ]; simpl; intros H.
  - rewrite Ascii.eqb_refl. reflexivity.
  - apply orb_false_iff in H. destruct H as [ Hc Ha ].
    rewrite Hc, (IH Ha). reflexivity.
Qed.

(** The last field only depends on what follows a separator. *)
Lemma last_field_after_sep (p f : string) :
  getitem_last (split sep (p ++ String sep f)) = getitem_last (split sep f).
Proof.
  induction p as [ | c p IH ].
  - simpl. rewrite Ascii.eqb_refl.
    destruct (split_nonempty f) as (w & ws & ->). reflexivity.
  - assert (Hc : contains sep (p ++ String sep f) = true).
    { rewrite contains_append, contains_cons, Ascii.eqb_refl.
      apply orb_true_iff. right. reflexivity. }
    destruct (split_with_sep sep _ Hc) as (_ & _ & w1 & w2 & ws & _ & _ & Hsp & _).
    simpl. rewrite Hsp in *.
    destruct (Ascii.eqb c sep); exact IH.
Qed.

(** Every field is free of the separator. *)
Lemma split_fields_free (s : string) :
  Forall (fun w => contains sep w = false) (split sep s).
Proof.
  induction s as [ | c s IH ]; simpl.
  - constructor; [ reflexivity | constructor ].
  - destruct (Ascii.eqb c sep) eqn:Hc.
    + constructor; [ reflexivity | exact IH ].
    + destruct (split sep s) as [ | w ws ].
      * constructor; [ | constructor ]. rewrite contains_cons, Hc. reflexivity.
      * inversion IH as [ | x xs Hw Hws ]; subst.
        constructor; [ | exact Hws ]. rewrite contains_cons, Hc. exact Hw.
Qed.

Lemma join_cons_char (j : string) (c : ascii) (w : string) (ws : list string) :
  join j (String c w :: ws) = String c (join j (w :: ws)).
Proof. destruct ws; reflexivity. Qed.

(** [sep.join(s.split(sep)) == s] *)
Lemma join_split (s : string) : join (String sep "") (split sep s) = s.
Proof.
  induction s as [ | c s IH ]; simpl; [ reflexivity | ].
  destruct (Ascii.eqb_spec c sep) as [ -> | _ ].
  - destruct (split_nonempty s) as (w & ws & E). rewrite E in *.
    change (join (String sep "") ("" :: w :: ws))
      with ("" ++ String sep "" ++ join (String sep "") (w :: ws)).
    rewrite IH. reflexivity.
  - destruct (split_nonempty s) as (w & ws & E). rewrite E in *.
    rewrite join_cons_char, IH. reflexivity.
Qed.

Lemma endswith_contains (s : string) :
  endswith sep s = true -> contains sep s = true.
Proof.
  induction s as [ | c s IH ]; simpl; [ discriminate | ].
  destruct s as [ | c' s ].
  - intros ->. reflexivity.
  - intros H. rewrite (IH H). apply orb_true_r.
Qed.

Lemma endswith_append (a : string) (x : ascii) (b : string) :
  endswith sep (a ++ String x b) = endswith sep (String x b).
Proof.
  induction a as [ | c a IH ]; [ reflexivity | ].
  rewrite <- IH. simpl. destruct a; reflexivity.
Qed.

(** The last field is empty exactly for the empty string and for a string
    that ends with the separator. *)
Lemma last_field_empty (s : string) :
  getitem_last (split sep s) = Return "" <->
  s = "" \/ endswith sep s = true.
Proof.
  destruct (contains sep s) eqn:Hc.
  - destruct (split_with_sep sep s Hc)
      as (dir & n & w1 & w2 & ws & E & Hn & _ & Hlast).
    rewrite Hlast. subst s. rewrite endswith_append.
    split.
    + intros [= ->]. right. simpl. apply Ascii.eqb_refl.
    + intros [ H | H ].
      * destruct dir; discriminate H.
      * destruct n as [ | c n ]; [ reflexivity | ].
        exfalso. change (endswith sep (String c n) = true) in H.
        apply endswith_contains in H. congruence.
  - rewrite (split_without_sep sep s Hc). simpl. split.
    + intros [= ->]. left. reflexivity.
    + intros [ -> | H ]; [ reflexivity | ].
      apply endswith_contains in H. congruence.
Qed.

End SplitFacts.

(** ** Case files: where they go and what they are called *)

Lemma fieldfile_str_of_name (f : FieldFile.t) (n : string) :
  FieldFile.name f = Some n -> FieldFile.__str__ f = n.
Proof.
  unfold FieldFile.__str__. intros ->. destruct n; reflexivity.
Qed.

(** Both branches of [casefile_location] end with a [/] and the file
    name. *)
Lemma casefile_location_cases (cf : CaseFile.t) (filename : string) :
  CaseFile.casefile_location cf filename
    = ("casefiles/" ++ Case.case_number (CaseFile.case cf) ++ "/requester")
        ++ String "/" filename
  \/ CaseFile.casefile_location cf filename
    = ("casefiles/" ++ Case.case_number (CaseFile.case cf))
        ++ String "/" filename.
Proof.
  unfold CaseFile.casefile_location, Case.__str__.
  destruct (negb (truth (CaseFile.uploader_id cf))); [ left | right ];
    simpl; rewrite ?append_assoc; reflexivity.
Qed.

(** X5. Storing a file under the location computed for it and then asking
    for its name gives the last component of the uploaded file name, and
    the uploaded file name itself when that name has no [/]. *)
Theorem casefile_name_of_location
    (cf stored : CaseFile.t) (filename : string) :
  FieldFile.name (CaseFile.file stored)
    = Some (CaseFile.casefile_location cf filename) ->
  CaseFile.name stored = getitem_last (split "/" filename) /\
  (contains "/" filename = false -> CaseFile.name stored = Return filename).
Proof.
  intros Hstored.
  assert (E : CaseFile.name stored = getitem_last (split "/" filename)).
  { unfold CaseFile.name, CaseFile._get_filename.
    rewrite (fieldfile_str_of_name _ _ Hstored).
    destruct (casefile_location_cases cf filename) as [ -> | -> ];
      rewrite last_field_after_sep;
      destruct (getitem_last (split "/" filename)); reflexivity. }
  split; [ exact E | ].
  intros Hplain. rewrite E, (split_without_sep "/" filename Hplain). reflexivity.
Qed.

Lemma casefile_name_of_location_witness :
  CaseFile.name
    (Fixtures.casefile_with 12
       (CaseFile.casefile_location (Fixtures.casefile_with 12 "" None) "map.pdf")
       None)
  = Return "map.pdf".
Proof.
  apply (proj2 (casefile_name_of_location
                  (Fixtures.casefile_with 12 "" None)
                  (Fixtures.casefile_with 12
                     (CaseFile.casefile_location
                        (Fixtures.casefile_with 12 "" None) "map.pdf")
                     None)
                  "map.pdf" eq_refl)).
  reflexivity.
Defined.

(** X6. Files of different cases never share a location: if the cases of
    two case files have different ids, their locations differ, whatever the
    file names and the uploaders. *)
Theorem casefile_locations_of_distinct_cases
    (cf1 cf2 : CaseFile.t) (filename1 filename2 : string) :
  Case.id (CaseFile.case cf1) <> Case.id (CaseFile.case cf2) ->
  CaseFile.casefile_location cf1 filename1
    <> CaseFile.casefile_location cf2 filename2.
Proof.
  intros Hid E. apply Hid. apply format_s_id_inj.
  assert (S : forall cf f, exists rest,
             CaseFile.casefile_location cf f
               = "casefiles/" ++ format_s_id (Case.id (CaseFile.case cf))
                   ++ String "/" rest).
  { intros cf f. unfold CaseFile.casefile_location.
    destruct (negb (truth (CaseFile.uploader_id cf)));
      [ exists ("requester/" ++ f) | exists f ]; reflexivity. }
  destruct (S cf1 filename1) as (r1 & E1), (S cf2 filename2) as (r2 & E2).
  rewrite E1, E2 in E. apply append_cancel_l in E.
  apply append_sep_inj in E;
    [ exact (proj1 E) | apply format_s_id_lacks; reflexivity
    | apply format_s_id_lacks; reflexivity ].
Qed.

Lemma casefile_locations_of_distinct_cases_witness :
  CaseFile.casefile_location (Fixtures.casefile_with 1 "" (Some 4)) "2/map.pdf"
    <> CaseFile.casefile_location (Fixtures.casefile_with 12 "" (Some 4)) "map.pdf".
Proof.
  apply (casefile_locations_of_distinct_cases
           (Fixtures.casefile_with 1 "" (Some 4))
           (Fixtures.casefile_with 12 "" (Some 4))).
  simpl. discriminate.
Defined.

(** X7. For a file name without [/], the location has exactly the
    components [casefiles], the case number, [requester] and the file name
    when there is no uploader, and [casefiles], the case number and the
    file name when the uploader is a (nonzero) user id. *)
Theorem casefile_location_components (cf : CaseFile.t) (filename : string) :
  contains "/" filename = false ->
  (CaseFile.uploader_id cf = None ->
     split "/" (CaseFile.casefile_location cf filename)
       = [ "casefiles"; Case.case_number (CaseFile.case cf); "requester"; filename ]) /\
  (forall u, CaseFile.uploader_id cf = Some u -> u <> 0 ->
     split "/" (CaseFile.casefile_location cf filename)
       = [ "casefiles"; Case.case_number (CaseFile.case cf); filename ]).
Proof.
  intros Hplain.
  assert (Hnum : contains "/" (Case.case_number (CaseFile.case cf)) = false).
  { apply format_s_id_lacks. reflexivity. }
  split.
  - intros Hu. unfold CaseFile.casefile_location, Case.__str__. rewrite Hu.
    cbv [truth option_truthy negb].
    change ("casefiles/" ++ Case.case_number (CaseFile.case cf) ++ "/requester/" ++ filename)
      with ("casefiles" ++ String "/"
              (Case.case_number (CaseFile.case cf) ++ String "/"
                 ("requester" ++ String "/" filename))).
    rewrite split_head by reflexivity.
    rewrite split_head by exact Hnum.
    rewrite split_head by reflexivity.
    rewrite (split_without_sep "/" filename Hplain). reflexivity.
  - intros u Hu Hnz. unfold CaseFile.casefile_location, Case.__str__. rewrite Hu.
    cbv [truth option_truthy int_truthy].
    rewrite (proj2 (Z.eqb_neq u 0) Hnz). cbv [negb].
    change ("casefiles/" ++ Case.case_number (CaseFile.case cf) ++ "/" ++ filename)
      with ("casefiles" ++ String "/"
              (Case.case_number (CaseFile.case cf) ++ String "/" filename)).
    rewrite split_head by reflexivity.
    rewrite split_head by exact Hnum.
    rewrite (split_without_sep "/" filename Hplain). reflexivity.
Qed.

Lemma casefile_location_components_witness :
  split "/" (CaseFile.casefile_location (Fixtures.casefile_with 12 "" None) "map.pdf")
    = [ "casefiles"; "12"; "requester"; "map.pdf" ] /\
  split "/" (CaseFile.casefile_location (Fixtures.casefile_with 12 "" (Some 4)) "map.pdf")
    = [ "casefiles"; "12"; "map.pdf" ].
Proof.
  split.
  - apply (proj1 (casefile_location_components
                    (Fixtures.casefile_with 12 "" None) "map.pdf" eq_refl)).
    reflexivity.
  - apply (proj2 (casefile_location_components
                    (Fixtures.casefile_with 12 "" (Some 4)) "map.pdf" eq_refl) 4);
      [ reflexivity | lia ].
Defined.

(** X8. The name of a case file is the empty string exactly when the file
    field is empty (no path stored) or the stored path ends with [/]. *)
Theorem casefile_name_empty (cf : CaseFile.t) :
  CaseFile.name cf = Return "" <->
  FieldFile.__str__ (CaseFile.file cf) = "" \/
  endswith "/" (FieldFile.__str__ (CaseFile.file cf)) = true.
Proof.
  unfold CaseFile.name, CaseFile._get_filename.
  rewrite <- last_field_empty.
  destruct (getitem_last (split "/" (FieldFile.__str__ (CaseFile.file cf))));
    simpl; tauto.
Qed.

Lemma casefile_name_empty_witness :
  CaseFile.name (Fixtures.casefile_with 12 "casefiles/12/" None) = Return "".
Proof.
  apply (proj2 (casefile_name_empty
                  (Fixtures.casefile_with 12 "casefiles/12/" None))).
  right. reflexivity.
Defined.

(** X9. [split] loses nothing: the fields of a string, of which there is
    always at least one, never contain the separator, and joined by the
    separator they give the string back. *)
Theorem split_join_roundtrip (sep : ascii) (s : string) :
  join (String sep "") (split sep s) = s /\
  Forall (fun w => contains sep w = false) (split sep s) /\
  split sep s <> [].
Proof.
  split; [ apply join_split | split; [ apply split_fields_free | ] ].
  destruct (split_nonempty sep s) as (w & ws & ->). discriminate.
Qed.

(** ** The staff permission on any user table *)

(** X10. The permission is never granted without a staff row: whenever the
    check returns [True], also on a table with duplicate names, the table
    holds a row with the acting identity's name that is marked staff. *)
Theorem has_permission_sound
    (db : User.table) (request : Request.t) (view : string) :
  IsStaff.has_permission db request view = Return true ->
  exists u, In u db /\
            User.username u = Request.user_str (Request.user request) /\
            User.is_staff u = true.
Proof.
  unfold IsStaff.has_permission, User.objects_get.
  set (who := Request.user_str (Request.user request)).
  destruct (User.objects_filter db who) as [ | u [ | v rows ] ] eqn:Hsel;
    simpl; intros H; try discriminate H.
  assert (Hu : In u (User.objects_filter db who)).
  { rewrite Hsel. left. reflexivity. }
  apply filter_In in Hu. destruct Hu as [ Hin Hname ].
  exists u. split; [ exact Hin | split ].
  - apply String.eqb_eq. exact Hname.
  - congruence.
Qed.

Lemma has_permission_sound_witness :
  exists u, In u Fixtures.users /\
            User.username u = "alice" /\ User.is_staff u = true.
Proof.
  apply (has_permission_sound Fixtures.users
           (Fixtures.request_of Fixtures.alice) "cases").
  reflexivity.
Defined.

(** X11. The outcome of the check is fixed by the number of rows that carry
    the acting identity's name: none gives [False], one gives that row's
    staff flag, two or more make it raise [MultipleObjectsReturned]; it
    never raises [ObjectDoesNotExist]. *)
Theorem has_permission_outcomes
    (db : User.table) (request : Request.t) (view : string) :
  (User.objects_filter db (Request.user_str (Request.user request)) = [] ->
     IsStaff.has_permission db request view = Return false) /\
  (forall u,
     User.objects_filter db (Request.user_str (Request.user request)) = [u] ->
     IsStaff.has_permission db request view = Return (User.is_staff u)) /\
  ((2 <= List.length (User.objects_filter db
                   (Request.user_str (Request.user request))))%nat <->
     IsStaff.has_permission db request view = Raise MultipleObjectsReturned) /\
  IsStaff.has_permission db request view <> Raise ObjectDoesNotExist.
Proof.
  unfold IsStaff.has_permission, User.objects_get.
  destruct (User.objects_filter db (Request.user_str (Request.user request)))
    as [ | u [ | v rows ] ]; simpl.
  - split; [ reflexivity | split; [ discriminate | split ] ].
    + split; [ lia | discriminate ].
    + discriminate.
  - split; [ discriminate | split; [ | split ] ].
    + intros u' [= <-]. reflexivity.
    + split; [ lia | discriminate ].
    + discriminate.
  - split; [ discriminate | split; [ discriminate | split ] ].
    + split; [ reflexivity | lia ].
    + discriminate.
Qed.

Lemma has_permission_outcomes_witness :
  IsStaff.has_permission [Fixtures.bob; Fixtures.alice; Fixtures.bob]
    (Fixtures.request_of Fixtures.bob) "cases"
  = Raise MultipleObjectsReturned.
Proof.
  apply (proj1 (proj1 (proj2 (proj2 (has_permission_outcomes
           [Fixtures.bob; Fixtures.alice; Fixtures.bob]
           (Fixtures.request_of Fixtures.bob) "cases"))))).
  simpl. lia.
Defined.

(** X12. For a logged-in user whose row is in a table with unique names,
    the check returns that user's staff flag. *)
Theorem has_permission_of_stored_user
    (db : User.table) (u : User.t) (method view : string) :
  User.unique_usernames db ->
  In u db ->
  IsStaff.has_permission db (Request.mk (Request.Authenticated u) method) view
    = Return (User.is_staff u).
Proof.
  intros Huniq Hin. unfold IsStaff.has_permission. simpl Request.user_str.
  rewrite (objects_get_present db (User.__str__ u) u Huniq Hin eq_refl).
  reflexivity.
Qed.

Lemma has_permission_of_stored_user_witness :
  IsStaff.has_permission Fixtures.users
    (Request.mk (Request.Authenticated Fixtures.bob) "POST") "cases"
  = Return false.
Proof.
  apply (has_permission_of_stored_user Fixtures.users Fixtures.bob "POST" "cases").
  - unfold User.unique_usernames. simpl.
    constructor; [ simpl; intuition discriminate | ].
    constructor; [ simpl; intuition discriminate | ].
    constructor.
  - right. left. reflexivity.
Defined.

(** ** String forms that can raise *)

(** X13. The string form of a property exists exactly when both its state
    and its zip code are set, and is then street, city, state and zip code
    separated by a comma and a space; with either of them [None] the
    method raises [TypeError]. *)
Theorem property_str (p : Property.t) :
  (forall st zip, Property.state p = Some st -> Property.zipcode p = Some zip ->
     Property.__str__ p
       = Ok (Property.street p ++ ", " ++ Property.city p ++ ", "
               ++ st ++ ", " ++ zip)) /\
  (Property.state p = None \/ Property.zipcode p = None <->
     Property.__str__ p = TypeError).
Proof.
  unfold Property.__str__.
  destruct (Property.state p) as [ st | ], (Property.zipcode p) as [ zip | ];
    simpl.
  - split.
    + intros st' zip' [= <-] [= <-]. rewrite !append_assoc. reflexivity.
    + split; [ intros [ H | H ]; discriminate H | discriminate ].
  - split; [ discriminate | ]. split; [ reflexivity | auto ].
  - split; [ discriminate | ]. split; [ reflexivity | auto ].
  - split; [ discriminate | ]. split; [ reflexivity | auto ].
Qed.

Lemma property_str_witness :
  Property.__str__ (MoreFixtures.property_with (Some "NC") (Some "27959"))
    = Ok "12 Dune Rd, Nags Head, NC, 27959" /\
  Property.__str__ (MoreFixtures.property_with (Some "NC") None) = TypeError.
Proof.
  split.
  - apply (proj1 (property_str
                    (MoreFixtures.property_with (Some "NC") (Some "27959")))
             "NC" "27959"); reflexivity.
  - apply (proj1 (proj2 (property_str
                    (MoreFixtures.property_with (Some "NC") None)))).
    right. reflexivity.
Defined.

(** X14. The string form of a field office is its city, a comma and its
    state when the state is set, and raises [TypeError] when the state is
    [None]. *)
Theorem field_office_str (o : FieldOffice.t) :
  (forall st, FieldOffice.state o = Some st ->
     FieldOffice.__str__ o = Ok (FieldOffice.city o ++ ", " ++ st)) /\
  (FieldOffice.state o = None <-> FieldOffice.__str__ o = TypeError).
Proof.
  unfold FieldOffice.__str__.
  destruct (FieldOffice.state o) as [ st | ]; simpl.
  - split.
    + intros st' [= <-]. rewrite append_assoc. reflexivity.
    + split; discriminate.
  - split; [ discriminate | tauto ].
Qed.

Lemma field_office_str_witness :
  FieldOffice.__str__ (MoreFixtures.office_with (Some "NC")) = Ok "Raleigh, NC" /\
  FieldOffice.__str__ (MoreFixtures.office_with None) = TypeError.
Proof.
  split.
  - apply (proj1 (field_office_str (MoreFixtures.office_with (Some "NC"))) "NC").
    reflexivity.
  - apply (proj1 (proj2 (field_office_str (MoreFixtures.office_with None)))).
    reflexivity.
Defined.


